(** * The CSS language client (extensions/css/client/src/cssMain.ts)

    A shallow embedding of the client-side bridge between the editor host and
    the CSS language server: the color-symbol request and its translation
    into the host's color information, the decoration feed, and the command
    that applies a server-proposed fix to the live document.

    Numbers are [Z], strings are [string], JavaScript arrays that are only
    read are [list]s, an array that is mutated after it has been handed out
    lives in a store of arrays, and a value that may be [undefined] is an
    [option]. *)

From Stdlib Require Import ZArith Ascii String List Lia.
From stdpp Require Import base option list gmap strings.

Local Open Scope string_scope.
Local Open Scope list_scope.

(** ** The language-server protocol side *)

(** The protocol's positions, ranges and text edits
    (vscode-languageclient's [Range] and [TextEdit]). *)
Module ls.

Record Position : Type := mkPosition { line : Z; character : Z }.

Record Range : Type := mkRange { start : Position; end_ : Position }.

Record TextEdit : Type := mkTextEdit { range : Range; newText : string }.

End ls.

(** [namespace ColorSymbolRequest]: the request type is identified by its
    method name; its parameter is a string, its result a [Range[]]. *)
Module ColorSymbolRequest.

Definition type : string := "css/colorSymbols".

End ColorSymbolRequest.

(** ** Promises

    A promise of the client is either settled with a value or waits for the
    answer to one request sent to the server.  The continuation [k] is what
    [await] or [.then] runs once the response has arrived; it never runs in
    the turn that created the promise. *)
Inductive Promise (A : Type) : Type :=
| Resolved (a : A)
| Request (method : string) (param : string) (k : list ls.Range -> Promise A).

Arguments Resolved {A} a.
Arguments Request {A} method param k.

(** What the server sends back for a request. *)
Inductive Response : Type :=
| Result (ranges : list ls.Range)
| ResponseError.

(** [client.sendRequest(type, param)]. *)
Definition sendRequest (type : string) (param : string) : Promise (list ls.Range) :=
  Request type param Resolved.

(** [await p] followed by the rest [k] of an async function; a rejected [p]
    rejects the function's promise and skips [k]. *)
Fixpoint await {A B : Type} (p : Promise A) (k : A -> Promise B) : Promise B :=
  match p with
  | Resolved a => k a
  | Request method param k' => Request method param (fun ranges => await (k' ranges) k)
  end.

(** [p.then(onFulfilled)] for a callback that returns a plain value; a
    rejected [p] skips the callback. *)
Definition then_ {A B : Type} (p : Promise A) (onFulfilled : A -> B) : Promise B :=
  await p (fun a => Resolved (onFulfilled a)).

(** The value a promise is fulfilled with when [server] answers its
    requests; [None] when a request fails and the promise is rejected. *)
Fixpoint settle {A : Type} (server : string -> string -> Response) (p : Promise A) : option A :=
  match p with
  | Resolved a => Some a
  | Request method param k =>
      match server method param with
      | Result ranges => settle server (k ranges)
      | ResponseError => None
      end
  end.

(** ** Host objects the client reads *)

(** A text document of the host.  [uri] is the string [document.uri.toString()]
    yields, [version] the host's edit counter, [getText] the content. *)
Record TextDocument : Type := mkTextDocument {
  uri : string;
  version : Z;
  getText : string
}.

Record TextEditor : Type := mkTextEditor { document : TextDocument }.

(** A cancellation token, by the flag a reader would find on it. *)
Record CancellationToken : Type := mkCancellationToken {
  isCancellationRequested : bool
}.

(** A message the host has shown to the user. *)
Inductive Message : Type :=
| InformationMessage (message : string)
| ErrorMessage (message : string).

Definition isErrorMessage (m : Message) : bool :=
  match m with ErrorMessage _ => true | InformationMessage _ => false end.

Definition isInformationMessage (m : Message) : bool :=
  match m with InformationMessage _ => true | ErrorMessage _ => false end.

(** ** The client, over the host interfaces it is written against

    The sources hold the client only.  The converter of the language-client
    library ([client.protocol2CodeConverter.asRange]), the host's
    [Color.fromHex] and the host's editing primitive behind
    [TextEditor.edit] are taken as parameters. *)
Section Client.

Context {HostRange : Type} {Color : Type}.

(** [client.protocol2CodeConverter.asRange]. *)
Context (asRange : ls.Range -> HostRange).

(** [Color.fromHex]. *)
Context (fromHex : string -> Color).

(** The host's editing primitive: the document a batch of replacements
    leaves behind, or [None] when the host rejects the batch as a whole. *)
Context (applyEdits : TextDocument -> list (HostRange * string) -> option TextDocument).

(** [new ColorInfo(range, color, format, availableFormats)]; the second
    provider passes [undefined] for the first two. *)
Record ColorInfo : Type := mkColorInfo {
  range : option HostRange;
  color : option Color;
  format : string;
  availableFormats : list string
}.

(** *** class ColorProvider *)

(** The callback of [ranges.map] in [provideDocumentColors]. *)
Definition toColorInfo (r : ls.Range) : ColorInfo :=
  let range := asRange r in
  let color := fromHex "#000000" in
  let format := "#{red:X}{green:X}{blue:X}" in
  let availableFormats := [format] in
  mkColorInfo (Some range) (Some color) format availableFormats.

(** [async provideDocumentColors(document, token)]: the request is awaited
    and the response mapped; [token] is not read. *)
Definition provideDocumentColors (document : TextDocument) (token : CancellationToken)
  : Promise (list ColorInfo) :=
  await (sendRequest ColorSymbolRequest.type (uri document)) (fun ranges =>
    Resolved (map toColorInfo ranges)).

(** *** activate: the closures created once the client is ready *)

(** [colorRequestor]. *)
Definition colorRequestor (uri : string) : Promise (list HostRange) :=
  then_ (sendRequest ColorSymbolRequest.type uri) (fun ranges => map asRange ranges).

(** The host state the client reads and changes: the active editor, the
    configuration, the messages shown so far and the edit batches handed
    to [TextEditor.edit] so far (oldest first). *)
Record Host : Type := mkHost {
  activeTextEditor : option TextEditor;
  configuration : gmap string bool;
  shown : list Message;
  submitted : list (list (HostRange * string))
}.

(** Host calls thread the host state. *)
Definition HostM (A : Type) : Type := Host -> A * Host.

#[global] Instance HostM_ret : MRet HostM := fun A a host => (a, host).

#[global] Instance HostM_bind : MBind HostM :=
  fun A B f m host => let '(a, host') := m host in f a host'.

(** [workspace.getConfiguration().get<boolean>(section)]: [undefined] when
    the setting has no value. *)
Definition getConfiguration_get (section : string) : HostM (option bool) :=
  fun host => (configuration host !! section, host).

(** [isDecoratorEnabled]. *)
Definition isDecoratorEnabled (languageId : string) : HostM (option bool) :=
  getConfiguration_get (languageId +:+ ".colorDecorators.enable").

(** The user changes a setting, or removes it ([None]), between two calls
    of the client. *)
Definition changeConfiguration (section : string) (value : option bool) : HostM unit :=
  fun host =>
    (tt, mkHost (activeTextEditor host)
           (match value with
            | Some value => <[section := value]> (configuration host)
            | None => delete section (configuration host)
            end)
           (shown host) (submitted host)).

(** [window.activeTextEditor]. *)
Definition window_activeTextEditor : HostM (option TextEditor) :=
  fun host => (activeTextEditor host, host).

(** [window.showInformationMessage] and [window.showErrorMessage]. *)
Definition showInformationMessage (message : string) : HostM unit :=
  fun host =>
    (tt, mkHost (activeTextEditor host) (configuration host)
           (shown host ++ [InformationMessage message]) (submitted host)).

Definition showErrorMessage (message : string) : HostM unit :=
  fun host =>
    (tt, mkHost (activeTextEditor host) (configuration host)
           (shown host ++ [ErrorMessage message]) (submitted host)).

(** The edit builder [TextEditor.edit] passes to its callback records the
    replacements in the order they are made. *)
Definition TextEditorEdit : Type := list (HostRange * string).

Definition replace (mutator : TextEditorEdit) (location : HostRange) (value : string)
  : TextEditorEdit :=
  mutator ++ [(location, value)].

(** [textEditor.edit(callback)]: the callback fills one builder, the
    builder's batch goes to the host as one transaction, and the promise
    is fulfilled with the host's verdict.  A rejected batch leaves the
    document as it was. *)
Definition TextEditor_edit (textEditor : TextEditor)
    (callback : TextEditorEdit -> TextEditorEdit) : HostM bool :=
  fun host =>
    let batch := callback [] in
    match applyEdits (document textEditor) batch with
    | Some document' =>
        (true, mkHost (Some (mkTextEditor document')) (configuration host)
                 (shown host) (submitted host ++ [batch]))
    | None =>
        (false, mkHost (activeTextEditor host) (configuration host)
                  (shown host) (submitted host ++ [batch]))
    end.

(** [applyCodeAction], the handler of the [_css.applyCodeAction] command.
    The [.then] callback runs when the host has settled the transaction. *)
Definition applyCodeAction (uri_ : string) (documentVersion : Z)
    (edits : list ls.TextEdit) : HostM unit :=
  textEditor ← window_activeTextEditor;
  match textEditor with
  | Some textEditor =>
      if String.eqb (uri (document textEditor)) uri_ then
        (if negb (version (document textEditor) =? documentVersion)%Z
         then showInformationMessage "CSS fix is outdated and can't be applied to the document."
         else mret tt) ;;
        success ← TextEditor_edit textEditor (fun mutator =>
          fold_left (fun mutator edit =>
                       replace mutator (asRange (ls.range edit)) (ls.newText edit))
                    edits mutator);
        if negb success
        then showErrorMessage "Failed to apply CSS fix to the document. Please consider opening an issue with steps to reproduce."
        else mret tt
      else mret tt
  | None => mret tt
  end.

(** *** The second provider, registered for the whole document selector *)

(** Arrays that are mutated after they have been handed out live in a
    store, and the values passed around are their addresses.
    [newArray] is the array literal [[]]. *)
Definition newArray (store : gmap nat (list ColorInfo)) : nat * gmap nat (list ColorInfo) :=
  let address := fresh (dom store) in
  (address, <[address := []]> store).

(** [array.push(item)]. *)
Definition push (array : nat) (item : ColorInfo) (store : gmap nat (list ColorInfo))
  : gmap nat (list ColorInfo) :=
  alter (fun items => items ++ [item]) array store.

(** What one call of the provider leaves behind: the array it returned,
    the store at the moment of the return, and the continuation that is
    still waiting for the server, as the store update it will make. *)
Record ProviderCall : Type := mkProviderCall {
  returned : nat;
  storeAtReturn : gmap nat (list ColorInfo);
  pending : Promise (gmap nat (list ColorInfo) -> gmap nat (list ColorInfo))
}.

(** The anonymous provider's [provideDocumentColors(document, token)]. *)
Definition anonymous_provideDocumentColors (document : TextDocument)
    (token : CancellationToken) (store : gmap nat (list ColorInfo)) : ProviderCall :=
  let '(colorInfos, store) := newArray store in
  let pending :=
    then_ (colorRequestor (uri document)) (fun ranges store =>
      fold_left (fun store range => push colorInfos (mkColorInfo None None "" []) store)
                ranges store) in
  mkProviderCall colorInfos store pending.

(** The store after the server has answered and the waiting continuation
    has run on the store [later] of that moment; a failed request leaves
    the store alone. *)
Definition afterResponse (server : string -> string -> Response) (call : ProviderCall)
    (later : gmap nat (list ColorInfo)) : gmap nat (list ColorInfo) :=
  match settle server (pending call) with
  | Some update => update later
  | None => later
  end.

End Client.

(** ** The host's ranges and colors *)

(** The host's position, range and color values ([vscode.Position],
    [vscode.Range], [vscode.Color]). *)
Module vscode.

Record Position : Type := mkPosition { line : Z; character : Z }.

Record Range : Type := mkRange { start : Position; end_ : Position }.

Record Color : Type := mkColor { red : Z; green : Z; blue : Z }.

End vscode.

(** The Range Translator. *)
Module Translator.

(** Modelled from the spec: the position half of
    [client.protocol2CodeConverter.asRange], the converter of the
    language-client library, which is not among the sources.  The spec has
    the line and character fields preserved verbatim, only the
    representation type changing. *)
Definition asPosition (p : ls.Position) : vscode.Position :=
  vscode.mkPosition (ls.line p) (ls.character p).

(** Modelled from the spec: [client.protocol2CodeConverter.asRange], the
    Range Translator from ServerRange to HostRange, which is not among the
    sources.  The spec: a pure function without failure modes, one
    HostRange per ServerRange, line and character fields preserved
    verbatim. *)
Definition asRange (r : ls.Range) : vscode.Range :=
  vscode.mkRange (asPosition (ls.start r)) (asPosition (ls.end_ r)).

(** Modelled from the spec: the reverse mapping from the host's
    coordinates back to the server's, which is not among the sources; the
    spec names it only as the converse of the translator. *)
Definition asProtocolPosition (p : vscode.Position) : ls.Position :=
  ls.mkPosition (vscode.line p) (vscode.character p).

(** Modelled from the spec: the reverse mapping on ranges, which is not
    among the sources. *)
Definition asProtocolRange (r : vscode.Range) : ls.Range :=
  ls.mkRange (asProtocolPosition (vscode.start r)) (asProtocolPosition (vscode.end_ r)).

End Translator.

(** A small host to run the client against: one-line documents, hex color
    literals of six digits. *)
Module ExampleHost.

Definition hexDigit (c : ascii) : option Z :=
  let n := Z.of_nat (nat_of_ascii c) in
  if (48 <=? n)%Z && (n <=? 57)%Z then Some (n - 48)%Z
  else if (65 <=? n)%Z && (n <=? 70)%Z then Some (n - 55)%Z
  else if (97 <=? n)%Z && (n <=? 102)%Z then Some (n - 87)%Z
  else None.

Definition hexByte (high low : ascii) : option Z :=
  h ← hexDigit high; l ← hexDigit low; Some (16 * h + l)%Z.

(** Modelled from the spec: [Color.fromHex] of the host, which is not
    among the sources; the spec calls the value it yields for the literal
    of the provider a fixed black color.  [None] for anything but a
    six-digit literal. *)
Definition fromHex (hex : string) : option vscode.Color :=
  match hex with
  | String "#" (String r1 (String r2 (String g1 (String g2 (String b1 (String b2 EmptyString)))))) =>
      r ← hexByte r1 r2; g ← hexByte g1 g2; b ← hexByte b1 b2;
      Some (vscode.mkColor r g b)
  | _ => None
  end.

(** One replacement in a one-line text: the characters from the start
    column up to the end column make way for [value]. *)
Definition replaceRange (text : string) (location : vscode.Range) (value : string)
  : option string :=
  let s := vscode.character (vscode.start location) in
  let e := vscode.character (vscode.end_ location) in
  if (vscode.line (vscode.start location) =? 0)%Z
     && (vscode.line (vscode.end_ location) =? 0)%Z
     && (0 <=? s)%Z && (s <=? e)%Z && (e <=? Z.of_nat (String.length text))%Z
  then Some (substring 0 (Z.to_nat s) text +:+ value
             +:+ substring (Z.to_nat e) (String.length text - Z.to_nat e) text)
  else None.

(** Modelled from the spec: the host's editing primitive behind
    [TextEditor.edit], which is not among the sources.  All replacements of
    a batch succeed together or the batch is rejected as a whole, and an
    applied batch moves the version on.  The batch is applied last
    replacement first. *)
Definition applyEdits (document : TextDocument) (batch : list (vscode.Range * string))
  : option TextDocument :=
  text ← foldr (fun '(location, value) text => text ≫= fun text => replaceRange text location value)
               (Some (getText document)) batch;
  Some (mkTextDocument (uri document) (version document + 1) text).

(** The scenario of the spec: [a.css] at version 3 holds [color: #fff;],
    and the server's range covers columns 7 to 11 of line 0. *)
Definition a_css : TextDocument := mkTextDocument "a.css" 3 "color: #fff;".

Definition fff : ls.Range := ls.mkRange (ls.mkPosition 0 7) (ls.mkPosition 0 11).

Definition server (method param : string) : Response :=
  if String.eqb method "css/colorSymbols" && String.eqb param "a.css"
  then Result [fff] else Result [].

Definition widen : ls.TextEdit := ls.mkTextEdit fff "#ffffff".

(** A range past the end of the line: the host rejects it. *)
Definition beyond : ls.TextEdit :=
  ls.mkTextEdit (ls.mkRange (ls.mkPosition 0 40) (ls.mkPosition 0 44)) "#ffffff".

Definition host : Host (HostRange := vscode.Range) :=
  mkHost (Some (mkTextEditor a_css)) {[ "css.colorDecorators.enable" := true ]} [] [].

Definition idle : Host (HostRange := vscode.Range) :=
  mkHost None ∅ [] [].

Definition cancelled : CancellationToken := mkCancellationToken true.

(** No array has been allocated yet. *)
Definition emptyStore
  : gmap nat (list (ColorInfo (HostRange := vscode.Range) (Color := option vscode.Color))) :=
  ∅.

End ExampleHost.

(** ** What a promise sends *)

(** The requests a promise sends, in order, as (method, parameter) pairs,
    when [server] answers them; nothing is sent after a failed request. *)
Fixpoint requests {A : Type} (server : string -> string -> Response) (p : Promise A)
  : list (string * string) :=
  match p with
  | Resolved _ => []
  | Request method param k =>
      (method, param)
      :: match server method param with
         | Result ranges => requests server (k ranges)
         | ResponseError => []
         end
  end.

(** More of the example host: a server that fails every request. *)
Module MoreExamples.

Definition down (method param : string) : Response := ResponseError.

(** The document [a.css] after the fix of the example has been applied. *)
Definition a_css_widened : TextDocument := mkTextDocument "a.css" 4 "color: #ffffff;".

(** Space and tab, for a white space class on plain lines. *)
Definition spaceOrTab (c : N) : bool := ((c =? 32) || (c =? 9))%N.

End MoreExamples.

(** ** The indentation rules of the language configurations *)

(** The regular expressions of [indentationRules], over strings as
    sequences of UTF-16 code units, with the part of the matching of
    JavaScript they use. *)
Module JSRegExp.

Inductive RegExp : Type :=
| AssertStart                      (* ^, without the multiline flag *)
| AssertEnd                        (* $, without the multiline flag *)
| Class (accepts : N -> bool)      (* one code unit of a class: \{, ., \s, [^}] *)
| Seq (r1 r2 : RegExp)             (* r1 r2 *)
| Star (r : RegExp)                (* r* *)
| Group (r : RegExp).              (* ( r ) *)

(** The iterations of a star: another round of [step] that consumes
    something, or on to [k].  [fuel] bounds the rounds by the code units
    left. *)
Fixpoint iterate (step : bool -> list N -> (bool -> list N -> bool) -> bool)
    (k : bool -> list N -> bool) (fuel : nat) (atStart : bool) (s : list N) : bool :=
  match fuel with
  | O => false
  | S fuel =>
      step atStart s (fun atStart' s' =>
        (length s' <? length s)%nat && iterate step k fuel atStart' s')
  end
  || k atStart s.

(** The backtracking matcher: [r] matches a prefix of the rest [s] of the
    input such that the continuation [k] accepts what is left; [atStart]
    says that nothing of the input has been consumed. *)
Fixpoint accept (r : RegExp) (atStart : bool) (s : list N) (k : bool -> list N -> bool)
  : bool :=
  match r with
  | AssertStart => atStart && k atStart s
  | AssertEnd => match s with [] => k atStart s | _ :: _ => false end
  | Class accepts => match s with c :: s' => accepts c && k false s' | [] => false end
  | Seq r1 r2 => accept r1 atStart s (fun atStart' s' => accept r2 atStart' s' k)
  | Star r' => iterate (accept r') k (length s) atStart s
  | Group r' => accept r' atStart s k
  end.

(** A match that starts here or at a later index, the end included. *)
Fixpoint search (r : RegExp) (atStart : bool) (s : list N) : bool :=
  accept r atStart s (fun _ _ => true)
  || match s with [] => false | _ :: s' => search r false s' end.

(** [r.test(s)] for a regular expression without flags. *)
Definition test (r : RegExp) (s : list N) : bool := search r true s.

(** The line terminators: LF, CR, LS and PS. *)
Definition lineTerminator (c : N) : bool :=
  ((c =? 10) || (c =? 13) || (c =? 8232) || (c =? 8233))%N.

(** [.] *)
Definition dot (c : N) : bool := negb (lineTerminator c).

(** A character, as in [\{] and [\}] (123 and 125), and a negated class of
    one character, as in [[^}]]. *)
Definition literal (x : N) (c : N) : bool := (c =? x)%N.

Definition except (x : N) (c : N) : bool := negb (c =? x)%N.

(** The code units of a text of ASCII characters. *)
Definition codeUnits (s : string) : list N := map N_of_ascii (list_ascii_of_string s).

End JSRegExp.

Record IndentationRules : Type := mkIndentationRules {
  increaseIndentPattern : JSRegExp.RegExp;
  decreaseIndentPattern : JSRegExp.RegExp
}.

(** [indentationRules], the one object all three language configurations
    share: [/(^.*\{[^}]*$)/] and [/^\s*\}/].  The class [\s] is the
    engine's and is taken as a parameter. *)
Definition indentationRules (whiteSpace : N -> bool) : IndentationRules :=
  {| increaseIndentPattern :=
       JSRegExp.Group
         (JSRegExp.Seq JSRegExp.AssertStart
            (JSRegExp.Seq (JSRegExp.Star (JSRegExp.Class JSRegExp.dot))
               (JSRegExp.Seq (JSRegExp.Class (JSRegExp.literal 123))
                  (JSRegExp.Seq (JSRegExp.Star (JSRegExp.Class (JSRegExp.except 125)))
                     JSRegExp.AssertEnd))));
     decreaseIndentPattern :=
       JSRegExp.Seq JSRegExp.AssertStart
         (JSRegExp.Seq (JSRegExp.Star (JSRegExp.Class whiteSpace))
            (JSRegExp.Class (JSRegExp.literal 125))) |}.

(** * Properties *)

(** ** Promises *)

Lemma settle_await {A B : Type} (server : string -> string -> Response)
    (p : Promise A) (k : A -> Promise B) :
  settle server (await p k) = settle server p ≫= fun a => settle server (k a).
Proof.
  induction p as [a | method param k' IH]; simpl.
  - reflexivity.
  - destruct (server method param) as [ranges |]; [apply IH | reflexivity].
Qed.

Lemma settle_then_ {A B : Type} (server : string -> string -> Response)
    (p : Promise A) (f : A -> B) :
  settle server (then_ p f) = f <$> settle server p.
Proof.
  unfold then_. rewrite settle_await.
  destruct (settle server p) as [a |]; reflexivity.
Qed.

Lemma settle_sendRequest (server : string -> string -> Response) (type param : string) :
  settle server (sendRequest type param) =
  match server type param with Result ranges => Some ranges | ResponseError => None end.
Proof. unfold sendRequest; simpl. destruct (server type param); reflexivity. Qed.

Section ClientProperties.

Context {HostRange : Type} {Color : Type}.
Context (asRange : ls.Range -> HostRange).
Context (fromHex : string -> Color).
Context (applyEdits : TextDocument -> list (HostRange * string) -> option TextDocument).

(** *** The color provider *)

Lemma settle_provideDocumentColors server document token :
  settle server (provideDocumentColors asRange fromHex document token) =
  match server ColorSymbolRequest.type (uri document) with
  | Result ranges => Some (map (toColorInfo asRange fromHex) ranges)
  | ResponseError => None
  end.
Proof.
  unfold provideDocumentColors. rewrite settle_await, settle_sendRequest.
  destruct (server _ _); reflexivity.
Qed.

Lemma settle_colorRequestor server uri_ :
  settle server (colorRequestor asRange uri_) =
  match server ColorSymbolRequest.type uri_ with
  | Result ranges => Some (map asRange ranges)
  | ResponseError => None
  end.
Proof.
  unfold colorRequestor. rewrite settle_then_, settle_sendRequest.
  destruct (server _ _); reflexivity.
Qed.

Local Abbreviation toColorInfo := (toColorInfo asRange fromHex).
Local Abbreviation provideDocumentColors := (provideDocumentColors asRange fromHex).

(** C3: whatever sequence of ranges the server returns for the
    css/colorSymbols request of the document, the provider's promise is
    fulfilled with a list of the same length whose i-th element is the
    color information built from the i-th range, and carries that range's
    translation: nothing is dropped, moved or merged. *)
Theorem provideDocumentColors_one_per_range server document token ranges :
  server ColorSymbolRequest.type (uri document) = Result ranges ->
  exists colorInfos,
    settle server (provideDocumentColors document token) = Some colorInfos
    /\ length colorInfos = length ranges
    /\ (forall i : nat, colorInfos !! i = toColorInfo <$> ranges !! i)
    /\ (forall i : nat, colorInfos !! i ≫= range = asRange <$> ranges !! i).
Proof.
  intros Hserver. exists (map toColorInfo ranges).
  rewrite settle_provideDocumentColors, Hserver.
  split; [reflexivity |]. split; [apply length_map |].
  split; intros i.
  - apply list_lookup_fmap.
  - change (map toColorInfo ranges) with (toColorInfo <$> ranges).
    rewrite list_lookup_fmap. destruct (ranges !! i); reflexivity.
Qed.

(** C4: every color information the provider delivers carries the color
    of the literal #000000, whatever the document and the range, the
    format string of the three hex components, and a list of available
    formats that holds this format and nothing else. *)
Theorem provideDocumentColors_fixed_payload server document token colorInfos c :
  settle server (provideDocumentColors document token) = Some colorInfos ->
  c ∈ colorInfos ->
  color c = Some (fromHex "#000000")
  /\ format c = "#{red:X}{green:X}{blue:X}"
  /\ availableFormats c = [format c].
Proof.
  rewrite settle_provideDocumentColors.
  destruct (server _ _) as [ranges |]; [| discriminate].
  intros [= <-] Hc.
  apply list_elem_of_fmap in Hc as (r & -> & _).
  repeat split.
Qed.

(** C2, as the code has it: the provider never reads its token.  With a
    token that is cancelled before the response is processed the call
    still delivers one color information per range of the response, the
    same list it delivers with a token that is not cancelled. *)
Theorem provideDocumentColors_token_unread server document token ranges :
  isCancellationRequested token = true ->
  server ColorSymbolRequest.type (uri document) = Result ranges ->
  settle server (provideDocumentColors document token) = Some (map toColorInfo ranges)
  /\ settle server (provideDocumentColors document token)
     = settle server (provideDocumentColors document (mkCancellationToken false)).
Proof.
  intros _ Hserver. rewrite !settle_provideDocumentColors, Hserver. split; reflexivity.
Qed.

(** *** The fix applicator *)

(** The loop over [edits] fills the builder with one replacement per edit,
    in order, each with its range translated. *)
Lemma fold_left_replace (edits : list ls.TextEdit) (mutator : list (HostRange * string)) :
  fold_left (fun mutator edit => replace mutator (asRange (ls.range edit)) (ls.newText edit))
            edits mutator
  = mutator ++ map (fun edit => (asRange (ls.range edit), ls.newText edit)) edits.
Proof.
  revert mutator. induction edits as [| edit edits IH]; intros mutator; simpl.
  - symmetry. apply app_nil_r.
  - rewrite IH. unfold replace. rewrite <- app_assoc. reflexivity.
Qed.

(** The whole of [applyCodeAction] when the active editor shows the
    document of the fix. *)
Lemma applyCodeAction_shown host textEditor uri_ documentVersion edits :
  activeTextEditor host = Some textEditor ->
  uri (document textEditor) = uri_ ->
  applyCodeAction asRange applyEdits uri_ documentVersion edits host =
  let told :=
    if (version (document textEditor) =? documentVersion)%Z then shown host
    else shown host
         ++ [InformationMessage "CSS fix is outdated and can't be applied to the document."] in
  let batch := map (fun edit => (asRange (ls.range edit), ls.newText edit)) edits in
  match applyEdits (document textEditor) batch with
  | Some document' =>
      (tt, mkHost (Some (mkTextEditor document')) (configuration host) told
             (submitted host ++ [batch]))
  | None =>
      (tt, mkHost (Some textEditor) (configuration host)
             (told ++ [ErrorMessage "Failed to apply CSS fix to the document. Please consider opening an issue with steps to reproduce."])
             (submitted host ++ [batch]))
  end.
Proof.
  intros Hactive <-.
  unfold applyCodeAction, mbind, HostM_bind, window_activeTextEditor.
  rewrite Hactive, String.eqb_refl.
  unfold TextEditor_edit. rewrite fold_left_replace. simpl.
  destruct (version (document textEditor) =? documentVersion)%Z; simpl;
    destruct (applyEdits _ _); simpl; rewrite ?Hactive; reflexivity.
Qed.

(** C5: when no editor is active, or the active editor shows another
    document than the one the fix is for, the command returns with the
    host exactly as it found it: no document is touched, no message is
    shown, no transaction is submitted. *)
Theorem applyCodeAction_without_editor host uri_ documentVersion edits :
  (forall textEditor, activeTextEditor host = Some textEditor ->
                      uri (document textEditor) <> uri_) ->
  applyCodeAction asRange applyEdits uri_ documentVersion edits host = (tt, host).
Proof.
  intros Hother.
  unfold applyCodeAction, mbind, HostM_bind, window_activeTextEditor.
  destruct (activeTextEditor host) as [textEditor |] eqn:Hactive; [| reflexivity].
  destruct (String.eqb_spec (uri (document textEditor)) uri_) as [Hsame | _].
  - destruct (Hother textEditor eq_refl Hsame).
  - reflexivity.
Qed.

Local Abbreviation applyCodeAction := (applyCodeAction asRange applyEdits).
Local Abbreviation translated edits :=
  (map (fun edit => (asRange (ls.range edit), ls.newText edit)) edits).

(** C6: when the active editor shows the document of the fix, the command
    hands the host exactly one transaction, and that transaction is the
    whole batch: one replacement per edit, in order, each range translated
    by the converter.  The document afterwards is what the host made of
    the whole batch, or the document as it was when the host rejected it;
    no part of a batch is ever applied by the client. *)
Theorem applyCodeAction_one_transaction host textEditor uri_ documentVersion edits :
  activeTextEditor host = Some textEditor ->
  uri (document textEditor) = uri_ ->
  let host' := (applyCodeAction uri_ documentVersion edits host).2 in
  submitted host' = submitted host ++ [translated edits]
  /\ activeTextEditor host' =
     Some (match applyEdits (document textEditor) (translated edits) with
           | Some document' => mkTextEditor document'
           | None => textEditor
           end).
Proof.
  intros Hactive Huri.
  rewrite (applyCodeAction_shown _ _ _ documentVersion edits Hactive Huri). simpl.
  destruct (applyEdits _ _); simpl; split; reflexivity.
Qed.

(** C7: when the active editor shows the document of the fix and the host
    rejects the transaction, the command shows the error message once,
    has submitted that one transaction and no other, and leaves the
    editor's document as it was. *)
Theorem applyCodeAction_rejected host textEditor uri_ documentVersion edits :
  activeTextEditor host = Some textEditor ->
  uri (document textEditor) = uri_ ->
  applyEdits (document textEditor) (translated edits) = None ->
  let host' := (applyCodeAction uri_ documentVersion edits host).2 in
  filter isErrorMessage (shown host')
  = filter isErrorMessage (shown host)
    ++ [ErrorMessage "Failed to apply CSS fix to the document. Please consider opening an issue with steps to reproduce."]
  /\ submitted host' = submitted host ++ [translated edits]
  /\ activeTextEditor host' = activeTextEditor host.
Proof.
  intros Hactive Huri Hrejected.
  rewrite (applyCodeAction_shown _ _ _ documentVersion edits Hactive Huri). simpl.
  rewrite Hrejected. simpl. split; [| split; [reflexivity | congruence]].
  destruct (version (document textEditor) =? documentVersion)%Z;
    rewrite !filter_app; simpl; rewrite ?app_nil_r; reflexivity.
Qed.

(** The outdated fix: the message is shown and the batch goes to the host
    all the same. *)
Lemma applyCodeAction_outdated_submits host textEditor uri_ documentVersion edits :
  activeTextEditor host = Some textEditor ->
  uri (document textEditor) = uri_ ->
  version (document textEditor) <> documentVersion ->
  let host' := (applyCodeAction uri_ documentVersion edits host).2 in
  filter isInformationMessage (shown host')
  = filter isInformationMessage (shown host)
    ++ [InformationMessage "CSS fix is outdated and can't be applied to the document."]
  /\ submitted host' = submitted host ++ [translated edits].
Proof.
  intros Hactive Huri Hversion.
  rewrite (applyCodeAction_shown _ _ _ documentVersion edits Hactive Huri). simpl.
  apply Z.eqb_neq in Hversion. rewrite Hversion.
  destruct (applyEdits _ _); simpl; split; try reflexivity.
  all: rewrite !filter_app; simpl; rewrite ?app_nil_r; reflexivity.
Qed.

(** *** The decoration feed *)

(** C9: a call of the predicate returns the value the configuration holds
    for the language's colorDecorators.enable setting at the moment of the
    call and keeps nothing: of two calls around a change of the setting,
    the first returns the old value and the second the new one. *)
Theorem isDecoratorEnabled_reads_through (host : Host (HostRange := HostRange))
    (languageId : string) (value : option bool) :
  isDecoratorEnabled languageId host
  = (configuration host !! (languageId +:+ ".colorDecorators.enable"), host)
  /\ (before ← isDecoratorEnabled languageId;
      changeConfiguration (languageId +:+ ".colorDecorators.enable") value;;
      after ← isDecoratorEnabled languageId;
      mret (before, after)) host
     = ((configuration host !! (languageId +:+ ".colorDecorators.enable"), value),
        (changeConfiguration (languageId +:+ ".colorDecorators.enable") value host).2).
Proof.
  split; [reflexivity |].
  unfold mbind, mret, HostM_bind, HostM_ret, isDecoratorEnabled, getConfiguration_get,
    changeConfiguration. simpl.
  destruct value as [value |].
  - rewrite lookup_insert_eq. reflexivity.
  - rewrite lookup_delete_eq. reflexivity.
Qed.

(** *** The second provider *)

(** Pushing one item per element of a list appends that many copies to the
    array and leaves every other array alone. *)
Lemma push_all_lookup {X : Type} (array : nat) (item : ColorInfo (HostRange := HostRange) (Color := Color))
    (ranges : list X) (store : gmap nat (list ColorInfo)) :
  fold_left (fun store _ => push array item store) ranges store !! array
  = (fun items => items ++ replicate (length ranges) item) <$> store !! array.
Proof.
  revert store. induction ranges as [| r ranges IH]; intros store; simpl.
  - destruct (store !! array) as [items |]; simpl; [rewrite app_nil_r |]; reflexivity.
  - rewrite IH. unfold push. rewrite lookup_alter_eq.
    destruct (store !! array) as [items |]; simpl; [rewrite <- app_assoc |]; reflexivity.
Qed.

(** C10: on every call, whatever the store, the document and the token,
    the second provider returns a new array that is empty at the return,
    and returns it while its request is still waiting for the answer: the
    continuation has not run.  The color informations without range and
    color are pushed by that continuation alone, one per range of the
    answer once the server has answered, and none when the request fails;
    so what the call hands to its caller is always the empty list. *)
Theorem anonymous_provider_returns_empty server document token
    (store : gmap nat (list (ColorInfo (HostRange := HostRange) (Color := Color)))) :
  let call := anonymous_provideDocumentColors asRange document token store in
  store !! returned call = None
  /\ storeAtReturn call !! returned call = Some []
  /\ (exists k, pending call = Request ColorSymbolRequest.type (uri document) k)
  /\ forall later items,
       later !! returned call = Some items ->
       afterResponse server call later !! returned call
       = Some (items
               ++ match server ColorSymbolRequest.type (uri document) with
                  | Result ranges =>
                      replicate (length ranges) (mkColorInfo None None "" [])
                  | ResponseError => []
                  end).
Proof.
  unfold anonymous_provideDocumentColors, newArray. simpl.
  split; [| split; [| split]].
  - apply not_elem_of_dom, is_fresh.
  - apply lookup_insert_eq.
  - eexists. reflexivity.
  - intros later items Hlater. unfold afterResponse. simpl.
    destruct (server _ _) as [ranges |]; simpl.
    + rewrite push_all_lookup, Hlater, length_map. reflexivity.
    + rewrite Hlater, app_nil_r. reflexivity.
Qed.

End ClientProperties.

(** ** The Range Translator *)

(** C8: the translator is injective; applied along a sequence it keeps
    every element at its index (and so the relative order), and distinct
    ranges stay distinct; the line and character of both ends come out as
    they went in; converting a translated range back gives the original
    range; and [colorRequestor] hands the decoration feed the translated
    response index by index. *)
Theorem asRange_faithful :
  (forall r1 r2 : ls.Range, Translator.asRange r1 = Translator.asRange r2 -> r1 = r2)
  /\ (forall (ranges : list ls.Range) (i : nat),
        map Translator.asRange ranges !! i = Translator.asRange <$> ranges !! i)
  /\ (forall ranges : list ls.Range, NoDup ranges -> NoDup (map Translator.asRange ranges))
  /\ (forall r : ls.Range,
        vscode.line (vscode.start (Translator.asRange r)) = ls.line (ls.start r)
        /\ vscode.character (vscode.start (Translator.asRange r)) = ls.character (ls.start r)
        /\ vscode.line (vscode.end_ (Translator.asRange r)) = ls.line (ls.end_ r)
        /\ vscode.character (vscode.end_ (Translator.asRange r)) = ls.character (ls.end_ r))
  /\ (forall r : ls.Range, Translator.asProtocolRange (Translator.asRange r) = r)
  /\ (forall server uri_ ranges,
        server ColorSymbolRequest.type uri_ = Result ranges ->
        settle server (colorRequestor Translator.asRange uri_)
        = Some (map Translator.asRange ranges)).
Proof.
  assert (Hback : forall r, Translator.asProtocolRange (Translator.asRange r) = r).
  { intros [[l1 c1] [l2 c2]]. reflexivity. }
  assert (Hinj : forall r1 r2, Translator.asRange r1 = Translator.asRange r2 -> r1 = r2).
  { intros r1 r2 Heq. rewrite <- (Hback r1), <- (Hback r2), Heq. reflexivity. }
  split; [exact Hinj |]. split; [| split; [| split; [| split]]].
  - intros ranges i. apply list_lookup_fmap.
  - intros ranges Hnodup. apply (@NoDup_fmap_2 _ _ Translator.asRange Hinj). exact Hnodup.
  - intros r. repeat split.
  - exact Hback.
  - intros server uri_ ranges Hserver. rewrite settle_colorRequestor, Hserver. reflexivity.
Qed.

(** ** The client on the example host *)

Section Examples.

Import ExampleHost.

Local Abbreviation asRange := Translator.asRange.

(** C1, on the scenario of the spec: [a.css] is at version 3 and the fix
    was computed for version 2.  The message is shown once, and the batch
    is submitted and applied all the same: the text changes. *)
Theorem applyCodeAction_outdated_fix_applied :
  let host' := (applyCodeAction asRange applyEdits "a.css" 2 [widen] host).2 in
  activeTextEditor host = Some (mkTextEditor a_css)
  /\ version a_css <> 2%Z
  /\ shown host' = [InformationMessage "CSS fix is outdated and can't be applied to the document."]
  /\ submitted host' = [[(asRange fff, "#ffffff")]]
  /\ activeTextEditor host' = Some (mkTextEditor (mkTextDocument "a.css" 4 "color: #ffffff;")).
Proof.
  pose proof (applyCodeAction_outdated_submits asRange applyEdits host (mkTextEditor a_css)
                "a.css" 2 [widen] eq_refl eq_refl) as [_ Hsubmitted]; [discriminate |].
  cbv zeta. split; [reflexivity |]. split; [discriminate |].
  split; [vm_compute; reflexivity |]. split; [exact Hsubmitted |].
  vm_compute. reflexivity.
Qed.

(** The token is cancelled and the symbol is delivered. *)
Lemma provideDocumentColors_cancelled_delivers :
  isCancellationRequested cancelled = true
  /\ settle server (provideDocumentColors asRange fromHex a_css cancelled)
     = Some [mkColorInfo (Some (asRange fff)) (Some (Some (vscode.mkColor 0 0 0)))
               "#{red:X}{green:X}{blue:X}" ["#{red:X}{green:X}{blue:X}"]].
Proof. split; [reflexivity |]. vm_compute. reflexivity. Qed.

Lemma provideDocumentColors_token_unread_witness :
  settle server (provideDocumentColors asRange fromHex a_css cancelled)
  = Some (map (toColorInfo asRange fromHex) [fff])
  /\ settle server (provideDocumentColors asRange fromHex a_css cancelled)
     = settle server (provideDocumentColors asRange fromHex a_css (mkCancellationToken false)).
Proof.
  apply (provideDocumentColors_token_unread asRange fromHex server a_css cancelled [fff]).
  - reflexivity.
  - vm_compute. reflexivity.
Defined.

Lemma provideDocumentColors_one_per_range_witness :
  exists colorInfos,
    settle server (provideDocumentColors asRange fromHex a_css cancelled) = Some colorInfos
    /\ length colorInfos = 1
    /\ (forall i : nat, colorInfos !! i = toColorInfo asRange fromHex <$> [fff] !! i)
    /\ (forall i : nat, colorInfos !! i ≫= range = asRange <$> [fff] !! i).
Proof.
  apply (provideDocumentColors_one_per_range asRange fromHex server a_css cancelled [fff]).
  vm_compute. reflexivity.
Defined.

Lemma provideDocumentColors_fixed_payload_witness :
  fromHex "#000000" = Some (vscode.mkColor 0 0 0)
  /\ color (toColorInfo asRange fromHex fff) = Some (fromHex "#000000")
  /\ format (toColorInfo asRange fromHex fff) = "#{red:X}{green:X}{blue:X}"
  /\ availableFormats (toColorInfo asRange fromHex fff)
     = [format (toColorInfo asRange fromHex fff)].
Proof.
  split; [vm_compute; reflexivity |].
  apply (provideDocumentColors_fixed_payload asRange fromHex server a_css cancelled
           [toColorInfo asRange fromHex fff]).
  - vm_compute. reflexivity.
  - apply list_elem_of_singleton. reflexivity.
Defined.

Lemma applyCodeAction_without_editor_witness :
  applyCodeAction asRange applyEdits "a.css" 3 [widen] idle = (tt, idle)
  /\ applyCodeAction asRange applyEdits "b.css" 3 [widen] host = (tt, host).
Proof.
  split.
  - apply (applyCodeAction_without_editor asRange applyEdits idle "a.css" 3 [widen]).
    intros textEditor Hactive. simpl in Hactive. discriminate Hactive.
  - apply (applyCodeAction_without_editor asRange applyEdits host "b.css" 3 [widen]).
    intros textEditor Hactive. simpl in Hactive. injection Hactive as <-.
    simpl. discriminate.
Defined.

Lemma applyCodeAction_one_transaction_witness :
  let host' := (applyCodeAction asRange applyEdits "a.css" 3 [widen; widen] host).2 in
  submitted host' = submitted host ++ [[(asRange fff, "#ffffff"); (asRange fff, "#ffffff")]]
  /\ activeTextEditor host' =
     Some (match applyEdits a_css [(asRange fff, "#ffffff"); (asRange fff, "#ffffff")] with
           | Some document' => mkTextEditor document'
           | None => mkTextEditor a_css
           end).
Proof.
  apply (applyCodeAction_one_transaction asRange applyEdits host (mkTextEditor a_css)
           "a.css" 3 [widen; widen]); reflexivity.
Defined.

Lemma applyCodeAction_rejected_witness :
  let host' := (applyCodeAction asRange applyEdits "a.css" 3 [beyond] host).2 in
  filter isErrorMessage (shown host')
  = filter isErrorMessage (shown host)
    ++ [ErrorMessage "Failed to apply CSS fix to the document. Please consider opening an issue with steps to reproduce."]
  /\ submitted host' = submitted host ++ [[(asRange (ls.range beyond), "#ffffff")]]
  /\ activeTextEditor host' = activeTextEditor host.
Proof.
  apply (applyCodeAction_rejected asRange applyEdits host (mkTextEditor a_css)
           "a.css" 3 [beyond]).
  - reflexivity.
  - reflexivity.
  - vm_compute. reflexivity.
Defined.

(** On the example host: the array the second provider returned is empty
    at the return; the continuation fills it when the response is handled. *)
Example anonymous_provider_array_filled_later :
  let call :=
    anonymous_provideDocumentColors asRange a_css cancelled emptyStore in
  storeAtReturn call !! returned call = Some []
  /\ afterResponse server call (storeAtReturn call) !! returned call
     = Some [mkColorInfo None None "" []].
Proof. vm_compute. split; reflexivity. Qed.

End Examples.

(** ** Further properties of the client *)

Lemma length_append (s1 s2 : string) :
  String.length (s1 +:+ s2) = String.length s1 + String.length s2.
Proof. induction s1 as [| c s1 IH]; cbn; [reflexivity | rewrite <- IH; reflexivity]. Qed.

(** Two strings with a common suffix differ before it. *)
Lemma append_inj_r (s1 s2 suffix : string) :
  s1 +:+ suffix = s2 +:+ suffix -> s1 = s2.
Proof.
  revert s2. induction s1 as [| c1 s1 IH]; intros [| c2 s2] Heq.
  - reflexivity.
  - apply (f_equal String.length) in Heq. rewrite !length_append in Heq. simpl in Heq. lia.
  - apply (f_equal String.length) in Heq. rewrite !length_append in Heq. simpl in Heq. lia.
  - injection Heq as -> Heq. f_equal. apply IH. exact Heq.
Qed.

Section MoreClientProperties.

Context {HostRange : Type} {Color : Type}.
Context (asRange : ls.Range -> HostRange).
Context (fromHex : string -> Color).
Context (applyEdits : TextDocument -> list (HostRange * string) -> option TextDocument).

(** *** The color request *)

(** X1: the color provider and the decoration feed agree.  For the same
    document and the same answers of the server, the ranges the provider's
    color informations carry are, index by index, the ranges
    [colorRequestor] yields for the document's URI, and the one is rejected
    exactly when the other is. *)
Theorem provider_and_feed_agree server document token :
  map range <$> settle server (provideDocumentColors asRange fromHex document token)
  = map Some <$> settle server (colorRequestor asRange (uri document)).
Proof.
  rewrite settle_provideDocumentColors, settle_colorRequestor.
  destruct (server _ _) as [ranges |]; simpl; [| reflexivity].
  f_equal. rewrite !map_map. reflexivity.
Qed.

(** X2: when the server fails the request, the provider's promise is
    rejected, the decoration feed's promise is rejected, and the
    continuation of the second provider never runs: whatever the store is
    by then, it stays as it is. *)
Theorem failed_request_rejects server document token
    (store : gmap nat (list (ColorInfo (HostRange := HostRange) (Color := Color)))) :
  server ColorSymbolRequest.type (uri document) = ResponseError ->
  settle server (provideDocumentColors asRange fromHex document token) = None
  /\ settle server (colorRequestor asRange (uri document)) = None
  /\ forall later,
       afterResponse server (anonymous_provideDocumentColors asRange document token store) later
       = later.
Proof.
  intros Hfailed. rewrite settle_provideDocumentColors, settle_colorRequestor, Hfailed.
  split; [reflexivity |]. split; [reflexivity |].
  intros later. unfold afterResponse, anonymous_provideDocumentColors, newArray. simpl.
  rewrite Hfailed. reflexivity.
Qed.

(** X3: the provider delivers an empty list exactly when the server
    answered with an empty sequence: a document without color literals (or
    one the server does not know) gives no color information, and no
    non-empty answer is ever lost. *)
Theorem provideDocumentColors_empty_iff server document token :
  settle server (provideDocumentColors asRange fromHex document token) = Some []
  <-> server ColorSymbolRequest.type (uri document) = Result [].
Proof.
  rewrite settle_provideDocumentColors.
  destruct (server _ _) as [ranges |]; split; intros Heq; try discriminate.
  - injection Heq as Heq. apply map_eq_nil in Heq. rewrite Heq. reflexivity.
  - injection Heq as ->. reflexivity.
Qed.

(** X4: each call of the provider, of [colorRequestor] and of the second
    provider sends exactly one request, whatever the server answers: the
    css/colorSymbols method with the document's URI as its parameter. *)
Theorem one_request_per_call server document token uri_
    (store : gmap nat (list (ColorInfo (HostRange := HostRange) (Color := Color)))) :
  requests server (provideDocumentColors asRange fromHex document token)
  = [("css/colorSymbols", uri document)]
  /\ requests server (colorRequestor asRange uri_) = [("css/colorSymbols", uri_)]
  /\ requests server (pending (anonymous_provideDocumentColors asRange document token store))
     = [("css/colorSymbols", uri document)].
Proof.
  unfold provideDocumentColors, colorRequestor, anonymous_provideDocumentColors, newArray,
    colorRequestor, then_, sendRequest, ColorSymbolRequest.type.
  simpl. repeat split; destruct (server _ _); reflexivity.
Qed.

(** *** The fix applicator *)

(** The guard of [applyCodeAction], and the command when the guard fails. *)
Lemma applyCodeAction_guard_fails (host : Host) uri_ documentVersion edits :
  match activeTextEditor host with
  | Some textEditor => String.eqb (uri (document textEditor)) uri_
  | None => false
  end = false ->
  applyCodeAction asRange applyEdits uri_ documentVersion edits host = (tt, host).
Proof.
  intros Hguard. unfold applyCodeAction, mbind, HostM_bind, window_activeTextEditor.
  destruct (activeTextEditor host) as [textEditor |]; [rewrite Hguard |]; reflexivity.
Qed.

Local Abbreviation applyCodeAction := (applyCodeAction asRange applyEdits).
Local Abbreviation translated edits :=
  (map (fun edit => (asRange (ls.range edit), ls.newText edit)) edits).

(** X5: a fix computed for the version the document is at, and accepted by
    the host, goes through silently: no message of either kind is shown,
    the one transaction is recorded, and the editor shows the document the
    host made of the batch. *)
Theorem applyCodeAction_current_fix_accepted host textEditor uri_ documentVersion edits
    document' :
  activeTextEditor host = Some textEditor ->
  uri (document textEditor) = uri_ ->
  version (document textEditor) = documentVersion ->
  applyEdits (document textEditor) (translated edits) = Some document' ->
  applyCodeAction uri_ documentVersion edits host
  = (tt, mkHost (Some (mkTextEditor document')) (configuration host) (shown host)
           (submitted host ++ [translated edits])).
Proof.
  intros Hactive Huri Hversion Haccepted.
  rewrite (applyCodeAction_shown _ _ _ _ _ documentVersion edits Hactive Huri). simpl.
  rewrite Haccepted. apply Z.eqb_eq in Hversion. rewrite Hversion. reflexivity.
Qed.

(** X6: what the command never does, on any host and for any arguments.
    It never changes the configuration; it never takes back a message or a
    transaction, shows at most two messages and submits at most one
    transaction; and it never shows a message without submitting a
    transaction: when no transaction was submitted, the host is exactly as
    it was. *)
Theorem applyCodeAction_frame host uri_ documentVersion edits :
  let host' := (applyCodeAction uri_ documentVersion edits host).2 in
  configuration host' = configuration host
  /\ (exists messages, shown host' = shown host ++ messages /\ length messages <= 2)
  /\ (exists batches, submitted host' = submitted host ++ batches /\ length batches <= 1)
  /\ (submitted host' = submitted host -> host' = host).
Proof.
  destruct (match activeTextEditor host with
            | Some textEditor => String.eqb (uri (document textEditor)) uri_
            | None => false
            end) eqn:Hguard.
  - destruct (activeTextEditor host) as [textEditor |] eqn:Hactive; [| discriminate].
    apply String.eqb_eq in Hguard.
    rewrite (applyCodeAction_shown _ _ _ _ _ documentVersion edits Hactive Hguard). simpl.
    destruct (version (document textEditor) =? documentVersion)%Z;
      destruct (applyEdits _ _); simpl.
    all: split; [reflexivity |].
    all: split;
      [eexists; split;
         [rewrite <- ?app_assoc; first [reflexivity | symmetry; apply app_nil_r]
         | simpl; lia] |].
    all: split; [exists [translated edits]; split; [reflexivity | simpl; lia] |].
    all: intros Hnone; apply (f_equal length) in Hnone; rewrite length_app in Hnone;
      simpl in Hnone; lia.
  - rewrite (applyCodeAction_guard_fails _ _ _ _ Hguard). simpl.
    split; [reflexivity |].
    split; [exists []; split; [symmetry; apply app_nil_r | simpl; lia] |].
    split; [exists []; split; [symmetry; apply app_nil_r | simpl; lia] | reflexivity].
Qed.

(** X7: the same fix applied twice.  When the first application is current
    and accepted and the host moves the document's version on, the second
    application finds the fix outdated, shows the message once, and all the
    same submits the whole batch a second time, now against the document
    the first application left. *)
Theorem applyCodeAction_twice host textEditor uri_ documentVersion edits document' :
  activeTextEditor host = Some textEditor ->
  uri (document textEditor) = uri_ ->
  version (document textEditor) = documentVersion ->
  applyEdits (document textEditor) (translated edits) = Some document' ->
  uri document' = uri_ ->
  version document' <> documentVersion ->
  let host'' :=
    ((applyCodeAction uri_ documentVersion edits;;
      applyCodeAction uri_ documentVersion edits) host).2 in
  submitted host'' = submitted host ++ [translated edits; translated edits]
  /\ filter isInformationMessage (shown host'')
     = filter isInformationMessage (shown host)
       ++ [InformationMessage "CSS fix is outdated and can't be applied to the document."]
  /\ activeTextEditor host'' =
     Some (match applyEdits document' (translated edits) with
           | Some document'' => mkTextEditor document''
           | None => mkTextEditor document'
           end).
Proof.
  intros Hactive Huri Hversion Haccepted Huri' Hversion'.
  unfold mbind, HostM_bind.
  rewrite (applyCodeAction_shown _ _ _ _ _ documentVersion edits Hactive Huri). simpl.
  rewrite Haccepted. apply Z.eqb_eq in Hversion. rewrite Hversion.
  set (host' := mkHost _ _ _ _).
  assert (Hactive' : activeTextEditor host' = Some (mkTextEditor document')) by reflexivity.
  pose proof (applyCodeAction_outdated_submits asRange applyEdits host' _ uri_ documentVersion
                edits Hactive' Huri' Hversion') as [Hshown Hsubmitted].
  pose proof (applyCodeAction_shown asRange applyEdits host' _ uri_ documentVersion edits
                Hactive' Huri') as Hrun.
  cbv zeta in Hshown, Hsubmitted. cbv zeta.
  rewrite Hsubmitted, Hshown. subst host'. simpl.
  split; [rewrite <- app_assoc; reflexivity |]. split; [reflexivity |].
  rewrite Hrun. simpl. destruct (applyEdits document' _); reflexivity.
Qed.

(** *** The decoration feed *)

(** X8: the setting is per language.  A change of another language's
    colorDecorators.enable setting does not change what the predicate
    returns for this language. *)
Theorem isDecoratorEnabled_per_language (host : Host (HostRange := HostRange))
    (languageId other : string) (value : option bool) :
  languageId <> other ->
  ((changeConfiguration (other +:+ ".colorDecorators.enable") value;;
    isDecoratorEnabled languageId) host).1
  = (isDecoratorEnabled languageId host).1.
Proof.
  intros Hother.
  assert (Hkeys : other +:+ ".colorDecorators.enable" <> languageId +:+ ".colorDecorators.enable").
  { intros Heq. apply Hother. symmetry. exact (append_inj_r _ _ _ Heq). }
  unfold mbind, HostM_bind, isDecoratorEnabled, getConfiguration_get, changeConfiguration.
  simpl. destruct value as [value |].
  - apply lookup_insert_ne. exact Hkeys.
  - apply lookup_delete_ne. exact Hkeys.
Qed.

(** *** The second provider *)

Lemma push_all_lookup_ne {X : Type} (array address : nat)
    (item : ColorInfo (HostRange := HostRange) (Color := Color))
    (ranges : list X) (store : gmap nat (list ColorInfo)) :
  address <> array ->
  fold_left (fun store _ => push array item store) ranges store !! address = store !! address.
Proof.
  intros Hother. revert store. induction ranges as [| r ranges IH]; intros store; simpl.
  - reflexivity.
  - rewrite IH. unfold push. apply lookup_alter_ne. congruence.
Qed.

Lemma storeAtReturn_lookup_ne document token
    (store : gmap nat (list (ColorInfo (HostRange := HostRange) (Color := Color))))
    (address : nat) :
  address <> returned (anonymous_provideDocumentColors asRange document token store) ->
  storeAtReturn (anonymous_provideDocumentColors asRange document token store) !! address
  = store !! address.
Proof.
  unfold anonymous_provideDocumentColors, newArray. simpl. intros Hother.
  apply lookup_insert_ne. congruence.
Qed.

Lemma afterResponse_lookup_ne server document token
    (store later : gmap nat (list (ColorInfo (HostRange := HostRange) (Color := Color))))
    (address : nat) :
  address <> returned (anonymous_provideDocumentColors asRange document token store) ->
  afterResponse server (anonymous_provideDocumentColors asRange document token store) later
    !! address
  = later !! address.
Proof.
  unfold anonymous_provideDocumentColors, newArray, afterResponse. simpl. intros Hother.
  destruct (server _ _) as [ranges |]; simpl; [| reflexivity].
  apply push_all_lookup_ne. exact Hother.
Qed.

Lemma afterResponse_lookup_returned server document token
    (store later : gmap nat (list (ColorInfo (HostRange := HostRange) (Color := Color))))
    ranges items :
  server ColorSymbolRequest.type (uri document) = Result ranges ->
  later !! returned (anonymous_provideDocumentColors asRange document token store)
  = Some items ->
  afterResponse server (anonymous_provideDocumentColors asRange document token store) later
    !! returned (anonymous_provideDocumentColors asRange document token store)
  = Some (items ++ replicate (length ranges) (mkColorInfo None None "" [])).
Proof.
  unfold anonymous_provideDocumentColors, newArray, afterResponse. simpl.
  intros Hserver Hlater. rewrite Hserver. simpl.
  rewrite push_all_lookup, Hlater, length_map. reflexivity.
Qed.

(** X9: a call of the second provider, and later its continuation, touch
    no array but the one the call returned: every other array of the store
    holds what it held. *)
Theorem anonymous_provider_frame server document token
    (store later : gmap nat (list (ColorInfo (HostRange := HostRange) (Color := Color))))
    (address : nat) :
  let call := anonymous_provideDocumentColors asRange document token store in
  address <> returned call ->
  storeAtReturn call !! address = store !! address
  /\ afterResponse server call later !! address = later !! address.
Proof.
  intros call Hother. split.
  - apply storeAtReturn_lookup_ne. exact Hother.
  - apply afterResponse_lookup_ne. exact Hother.
Qed.

(** X10: two calls of the second provider never share an array.  The
    second call returns another array than the first, and when the first
    call's request is answered, its continuation fills the first array and
    leaves the second empty. *)
Theorem anonymous_provider_calls_apart server document1 token1 document2 token2
    (store : gmap nat (list (ColorInfo (HostRange := HostRange) (Color := Color)))) ranges :
  server ColorSymbolRequest.type (uri document1) = Result ranges ->
  let call1 := anonymous_provideDocumentColors asRange document1 token1 store in
  let call2 := anonymous_provideDocumentColors asRange document2 token2 (storeAtReturn call1) in
  returned call1 <> returned call2
  /\ afterResponse server call1 (storeAtReturn call2) !! returned call1
     = Some (replicate (length ranges) (mkColorInfo None None "" []))
  /\ afterResponse server call1 (storeAtReturn call2) !! returned call2 = Some [].
Proof.
  intros Hserver call1 call2.
  assert (Hfresh : returned call2 <> returned call1).
  { intros Heq.
    assert (Hin : returned call1 ∈ dom (storeAtReturn call1)).
    { apply elem_of_dom. exists []. apply lookup_insert_eq. }
    rewrite <- Heq in Hin. exact (is_fresh (dom (storeAtReturn call1)) Hin). }
  assert (Hsecond : storeAtReturn call2 !! returned call2 = Some []) by apply lookup_insert_eq.
  assert (Hfirst : storeAtReturn call2 !! returned call1 = Some []).
  { unfold call2. rewrite storeAtReturn_lookup_ne.
    - apply lookup_insert_eq.
    - intros Heq. apply Hfresh. symmetry. exact Heq. }
  split; [intros Heq; apply Hfresh; symmetry; exact Heq |]. split.
  - unfold call1 in *.
    rewrite (afterResponse_lookup_returned _ _ _ _ _ ranges [] Hserver Hfirst). reflexivity.
  - unfold call1 in *. rewrite afterResponse_lookup_ne; [exact Hsecond | exact Hfresh].
Qed.

End MoreClientProperties.

(** ** The indentation rules *)

Section IndentationRules.

Import JSRegExp.

(** A star over a class takes some code units of the class and goes on. *)
Lemma iterate_Class (accepts : N -> bool) (k : bool -> list N -> bool) (fuel : nat)
    (atStart : bool) (s : list N) :
  length s <= fuel ->
  iterate (accept (Class accepts)) k fuel atStart s = true
  <-> exists u v, s = u ++ v /\ forallb accepts u = true
                  /\ k (match u with [] => atStart | _ :: _ => false end) v = true.
Proof.
  revert atStart s. induction fuel as [| fuel IH]; intros atStart s Hfuel.
  - destruct s as [| c s']; [| simpl in Hfuel; lia]. simpl. split.
    + intros Hk. exists [], []. repeat split. exact Hk.
    + intros (u & v & Hs & _ & Hk). symmetry in Hs. apply app_eq_nil in Hs as [-> ->]. exact Hk.
  - destruct s as [| c s']; simpl.
    + split.
      * intros Hk. exists [], []. repeat split. exact Hk.
      * intros (u & v & Hs & _ & Hk). symmetry in Hs. apply app_eq_nil in Hs as [-> ->].
        exact Hk.
    + assert (Hshorter : (length s' <? S (length s'))%nat = true) by (apply Nat.ltb_lt; lia).
      rewrite Hshorter. simpl in Hfuel. rewrite orb_true_iff, andb_true_iff. simpl.
      rewrite (IH false s') by lia. split.
      * intros [[Hc (u & v & -> & Hu & Hk)] | Hk].
        -- exists (c :: u), v. simpl. rewrite Hc, Hu. repeat split.
           destruct u; exact Hk.
        -- exists [], (c :: s'). repeat split. exact Hk.
      * intros ([| c' u] & v & Hs & Hu & Hk); simpl in Hs.
        -- right. rewrite Hs. exact Hk.
        -- left. injection Hs as -> ->. simpl in Hu. apply andb_true_iff in Hu as [Hc Hu].
           split; [exact Hc |]. exists u, v. repeat split; [exact Hu |].
           destruct u; exact Hk.
Qed.

Lemma accept_Star_Class (accepts : N -> bool) (k : bool -> list N -> bool)
    (atStart : bool) (s : list N) :
  accept (Star (Class accepts)) atStart s k = true
  <-> exists u v, s = u ++ v /\ forallb accepts u = true
                  /\ k (match u with [] => atStart | _ :: _ => false end) v = true.
Proof. simpl. apply iterate_Class. lia. Qed.

(** A pattern that starts with [^] matches at the start of the input or
    not at all. *)
Lemma search_AssertStart (r : RegExp) (s : list N) :
  search (Seq AssertStart r) false s = false.
Proof. induction s as [| c s IH]; simpl; [reflexivity | exact IH]. Qed.

Lemma test_AssertStart (r : RegExp) (s : list N) :
  test (Seq AssertStart r) s = accept r true s (fun _ _ => true).
Proof.
  unfold test. destruct s as [| c s]; simpl.
  - apply orb_false_r.
  - rewrite search_AssertStart. apply orb_false_r.
Qed.

Lemma test_Group (r : RegExp) (s : list N) : test (Group r) s = test r s.
Proof.
  unfold test. generalize true. induction s as [| c s IH]; intros b; simpl;
    [reflexivity | rewrite IH; reflexivity].
Qed.

(** X11: [increaseIndentPattern] matches a string exactly when the string
    has an opening brace with no line terminator before it and no closing
    brace anywhere after it.  So a line whose last brace is an opening one
    increases the indentation, and a line such as [a { b }] does not. *)
Theorem increaseIndentPattern_test (whiteSpace : N -> bool) (s : list N) :
  test (increaseIndentPattern (indentationRules whiteSpace)) s = true
  <-> exists u v, s = u ++ 123%N :: v
                  /\ Forall (fun c => lineTerminator c = false) u
                  /\ 125%N ∉ v.
Proof.
  simpl increaseIndentPattern. rewrite test_Group, test_AssertStart.
  change (accept (Seq ?r1 ?r2) ?b ?s ?k) with (accept r1 b s (fun b' s' => accept r2 b' s' k)).
  rewrite accept_Star_Class. split.
  - intros (u & v0 & -> & Hu & Hrest).
    destruct v0 as [| c v]; [discriminate |].
    change (literal 123 c && accept (Star (Class (except 125))) false v
              (fun b' s' => accept AssertEnd b' s' (fun _ _ => true)) = true) in Hrest.
    apply andb_true_iff in Hrest as [Hc Hrest]. apply N.eqb_eq in Hc as ->.
    apply accept_Star_Class in Hrest as (w & e & -> & Hw & Hend).
    destruct e as [| ? ?]; [| discriminate]. rewrite app_nil_r.
    exists u, w. split; [reflexivity |]. split.
    + apply Forall_forall. intros c Hc. rewrite forallb_forall in Hu.
      apply list_elem_of_In in Hc. specialize (Hu c Hc). unfold dot in Hu.
      apply negb_true_iff in Hu. exact Hu.
    + intros Hin. rewrite forallb_forall in Hw. apply list_elem_of_In in Hin.
      specialize (Hw _ Hin). discriminate.
  - intros (u & v & -> & Hu & Hv). exists u, (123%N :: v). split; [reflexivity |]. split.
    + apply forallb_forall. intros c Hc. rewrite Forall_forall in Hu.
      apply list_elem_of_In in Hc. unfold dot. rewrite (Hu c Hc). reflexivity.
    + change (literal 123 123 && accept (Star (Class (except 125))) false v
                (fun b' s' => accept AssertEnd b' s' (fun _ _ => true)) = true).
      change (literal 123 123) with true. rewrite andb_true_l.
      apply accept_Star_Class. exists v, []. split; [symmetry; apply app_nil_r |].
      split; [| destruct v; reflexivity].
      apply forallb_forall. intros c Hc. unfold except. apply negb_true_iff, N.eqb_neq.
      intros ->. apply Hv. apply list_elem_of_In. exact Hc.
Qed.

(** X12: [decreaseIndentPattern] matches a string exactly when the string
    starts with a closing brace after white space only; whatever follows
    the brace does not matter. *)
Theorem decreaseIndentPattern_test (whiteSpace : N -> bool) (s : list N) :
  test (decreaseIndentPattern (indentationRules whiteSpace)) s = true
  <-> exists u v, s = u ++ 125%N :: v /\ Forall (fun c => whiteSpace c = true) u.
Proof.
  simpl decreaseIndentPattern. rewrite test_AssertStart.
  change (accept (Seq ?r1 ?r2) ?b ?s ?k) with (accept r1 b s (fun b' s' => accept r2 b' s' k)).
  rewrite accept_Star_Class. split.
  - intros (u & v0 & -> & Hu & Hrest). destruct v0 as [| c v]; [discriminate |].
    simpl in Hrest. rewrite andb_true_r in Hrest. apply N.eqb_eq in Hrest as ->.
    exists u, v. split; [reflexivity |].
    apply Forall_forall. intros c Hc. rewrite forallb_forall in Hu.
    apply Hu, list_elem_of_In, Hc.
  - intros (u & v & -> & Hu). exists u, (125%N :: v). split; [reflexivity |]. split.
    + apply forallb_forall. intros c Hc. rewrite Forall_forall in Hu.
      apply Hu, list_elem_of_In, Hc.
    + reflexivity.
Qed.

End IndentationRules.

(** ** More of the client on the example host *)

Section MoreExamplesOnTheHost.

Import ExampleHost MoreExamples.

Local Abbreviation asRange := Translator.asRange.

Lemma failed_request_rejects_witness :
  settle down (provideDocumentColors asRange fromHex a_css cancelled) = None
  /\ settle down (colorRequestor asRange (uri a_css)) = None
  /\ forall later,
       afterResponse down (anonymous_provideDocumentColors asRange a_css cancelled emptyStore)
         later
       = later.
Proof.
  apply (failed_request_rejects asRange fromHex down a_css cancelled emptyStore).
  reflexivity.
Defined.

Lemma applyCodeAction_current_fix_accepted_witness :
  applyCodeAction asRange applyEdits "a.css" 3 [widen] host
  = (tt, mkHost (Some (mkTextEditor a_css_widened)) (configuration host) (shown host)
           (submitted host ++ [[(asRange fff, "#ffffff")]])).
Proof.
  apply (applyCodeAction_current_fix_accepted asRange applyEdits host (mkTextEditor a_css)
           "a.css" 3 [widen] a_css_widened).
  - reflexivity.
  - reflexivity.
  - reflexivity.
  - vm_compute. reflexivity.
Defined.

Lemma applyCodeAction_twice_witness :
  let host'' :=
    ((applyCodeAction asRange applyEdits "a.css" 3 [widen];;
      applyCodeAction asRange applyEdits "a.css" 3 [widen]) host).2 in
  submitted host'' = submitted host ++ [[(asRange fff, "#ffffff")]; [(asRange fff, "#ffffff")]]
  /\ filter isInformationMessage (shown host'')
     = filter isInformationMessage (shown host)
       ++ [InformationMessage "CSS fix is outdated and can't be applied to the document."]
  /\ activeTextEditor host'' =
     Some (match applyEdits a_css_widened [(asRange fff, "#ffffff")] with
           | Some document'' => mkTextEditor document''
           | None => mkTextEditor a_css_widened
           end).
Proof.
  apply (applyCodeAction_twice asRange applyEdits host (mkTextEditor a_css) "a.css" 3 [widen]
           a_css_widened).
  - reflexivity.
  - reflexivity.
  - reflexivity.
  - vm_compute. reflexivity.
  - reflexivity.
  - simpl. lia.
Defined.

Lemma isDecoratorEnabled_per_language_witness :
  ((changeConfiguration ("scss" +:+ ".colorDecorators.enable") (Some false);;
    isDecoratorEnabled "css") host).1
  = (isDecoratorEnabled "css" host).1.
Proof.
  apply (isDecoratorEnabled_per_language host "css" "scss" (Some false)).
  intros Heq. discriminate Heq.
Defined.

Lemma anonymous_provider_frame_witness :
  let call := anonymous_provideDocumentColors asRange a_css cancelled emptyStore in
  storeAtReturn call !! 1 = emptyStore !! 1
  /\ afterResponse server call (storeAtReturn call) !! 1 = storeAtReturn call !! 1.
Proof.
  apply (anonymous_provider_frame asRange server a_css cancelled emptyStore
           (storeAtReturn (anonymous_provideDocumentColors asRange a_css cancelled emptyStore))
           1).
  vm_compute. intros Heq. discriminate Heq.
Defined.

Lemma anonymous_provider_calls_apart_witness :
  let call1 := anonymous_provideDocumentColors asRange a_css cancelled emptyStore in
  let call2 :=
    anonymous_provideDocumentColors asRange a_css_widened cancelled (storeAtReturn call1) in
  returned call1 <> returned call2
  /\ afterResponse server call1 (storeAtReturn call2) !! returned call1
     = Some (replicate (length [fff]) (mkColorInfo None None "" []))
  /\ afterResponse server call1 (storeAtReturn call2) !! returned call2 = Some [].
Proof.
  apply (anonymous_provider_calls_apart asRange server a_css cancelled a_css_widened cancelled
           emptyStore [fff]).
  vm_compute. reflexivity.
Defined.

(** The indentation rules on a few lines. *)
Example indentationRules_on_lines :
  map (fun line =>
         (JSRegExp.test (increaseIndentPattern (indentationRules spaceOrTab))
            (JSRegExp.codeUnits line),
          JSRegExp.test (decreaseIndentPattern (indentationRules spaceOrTab))
            (JSRegExp.codeUnits line)))
      ["a {"; "a { b }"; "}"; "  } else {"; "color: red;"]
  = [(true, false); (false, false); (false, true); (true, true); (false, false)].
Proof. vm_compute. reflexivity. Qed.

End MoreExamplesOnTheHost.
